(** * trampolino: command-line wrappers and the chained CLI

    A shallow embedding of
      - [trampolino/workflows/interfaces/mrtrix3/preprocess.py]: the
        declarative input specifications of the MRtrix3 wrappers, their
        [_cmd] attributes and their [_list_outputs] methods;
      - [trampolino/cli.py]: the click group [cli] and its chained
        subcommands [recon], [track] and [filter].

    The wrappers are data: each trait is a type with keyword metadata.  The
    data is interpreted by the command-line machinery of the workflow
    library the wrappers subclass ([CommandLine]); that machinery is
    embedded once, generically, in [Module Nipype], and every wrapper is
    run through it. *)

From Stdlib Require Import ZArith String Ascii List Bool.
From stdpp Require Import gmap strings list fin_maps pretty.

Local Open Scope string_scope.
Local Open Scope Z_scope.

(** ** Python values and string operations used by the wrappers *)

Module Py.

(** Scalars that occur as trait values: [traits.Bool], [traits.Int] and
    the string-valued [File], [Enum] and [Str]. *)
Inductive atom : Type :=
| ABool (b : bool)
| AInt (z : Z)
| AStr (s : string).

(** A trait value: [Undefined], a scalar, a list ([ListInt],
    [InputMultiObject]) or a tuple ([traits.Tuple]). *)
Inductive value : Type :=
| Undefined
| Atom (a : atom)
| VList (l : list atom)
| VTuple (l : list atom).

#[global] Instance atom_eq_dec : EqDecision atom.
Proof. solve_decision. Defined.

#[global] Instance value_eq_dec : EqDecision value.
Proof. solve_decision. Defined.

Definition VStr (s : string) : value := Atom (AStr s).
Definition VInt (z : Z) : value := Atom (AInt z).
Definition VBool (b : bool) : value := Atom (ABool b).

(** An optional path as a trait value: [Undefined] when not given. *)
Definition path_value (o : option string) : value :=
  match o with
  | Some s => VStr s
  | None => Undefined
  end.

(** Exceptions raised along the modelled paths. *)
Inductive exc : Type :=
| ValueError
| IOError
| TypeError
| KeyError
| AttributeError
| IndexError
| RuntimeError
| NotImplementedError
| NipypeInterfaceError
| RecursionError
| UsageError.

Inductive result (A : Type) : Type :=
| Ok (a : A)
| Raise (e : exc).
Arguments Ok {A} a.
Arguments Raise {A} e.

#[global] Instance result_ret : MRet result := fun _ a => Ok a.

#[global] Instance result_bind : MBind result := fun _ _ k r =>
  match r with
  | Ok a => k a
  | Raise e => Raise e
  end.

Definition is_ok {A} (r : result A) : bool :=
  match r with
  | Ok _ => true
  | Raise _ => false
  end.

(** [isdefined(v)] *)
Definition isdefined (v : value) : bool :=
  match v with
  | Undefined => false
  | _ => true
  end.

(** Truth value of [v] in a condition. *)
Definition truthy (v : value) : bool :=
  match v with
  | Undefined => false
  | Atom (ABool b) => b
  | Atom (AInt z) => negb (z =? 0)
  | Atom (AStr s) => negb (String.eqb s "")
  | VList l | VTuple l => negb (bool_decide (l = []))
  end.

(** [str(a)] *)
Definition str (a : atom) : string :=
  match a with
  | ABool true => "True"
  | ABool false => "False"
  | AInt z => pretty z
  | AStr s => s
  end.

(** [sep.join(l)] *)
Fixpoint join (sep : string) (l : list string) : string :=
  match l with
  | [] => ""
  | [x] => x
  | x :: rest => x ++ sep ++ join sep rest
  end.

(** The [%d] conversion: integers and booleans, nothing else. *)
Definition fmt_d (a : atom) : result string :=
  match a with
  | AInt z => Ok (pretty z)
  | ABool b => Ok (if b then "1" else "0")
  | AStr _ => Raise TypeError
  end.

(** [fmt % args] for format strings over [%s], [%d] and [%%]: every
    conversion consumes one argument; too few or too many arguments, or
    another conversion character, is an error. *)
Fixpoint pyformat (fmt : string) (args : list atom) : result string :=
  match fmt with
  | "" => match args with
          | [] => Ok ""
          | _ :: _ => Raise TypeError
          end
  | String "%" (String "s" rest) =>
      match args with
      | a :: args' => r ← pyformat rest args'; Ok (str a ++ r)
      | [] => Raise TypeError
      end
  | String "%" (String "d" rest) =>
      match args with
      | a :: args' =>
          d ← fmt_d a; r ← pyformat rest args'; Ok (d ++ r)
      | [] => Raise TypeError
      end
  | String "%" (String "%" rest) =>
      r ← pyformat rest args; Ok (String "%" r)
  | String "%" _ => Raise ValueError
  | String c rest => r ← pyformat rest args; Ok (String c r)
  end.

(** [fmt % v]: a tuple supplies one argument per element, any other
    value is the single argument.  A list is only formatted after it was
    joined into a string, so it does not reach this function. *)
Definition percent (fmt : string) (v : value) : result string :=
  match v with
  | Atom a => pyformat fmt [a]
  | VTuple l => pyformat fmt l
  | VList _ | Undefined => Raise TypeError
  end.

(** [needle in s] *)
Fixpoint contains (needle s : string) : bool :=
  String.prefix needle s ||
  match s with
  | "" => false
  | String _ s' => contains needle s'
  end.

(** [s.endswith(suffix)] *)
Definition endswith (s suffix : string) : bool :=
  String.prefix (String.rev suffix) (String.rev s).

(** [s.replace(old, '')] for a non-empty [old] *)
Fixpoint remove_all (fuel : nat) (old s : string) : string :=
  match fuel with
  | O => s
  | S fuel' =>
      match s with
      | "" => ""
      | String c s' =>
          if String.prefix old s
          then remove_all fuel' old
                 (String.substring (String.length old)
                    (String.length s - String.length old) s)
          else String c (remove_all fuel' old s')
      end
  end.

(** [c.lower()] on ASCII *)
Definition lower_ascii (c : ascii) : ascii :=
  let n := nat_of_ascii c in
  if ((65 <=? n) && (n <=? 90))%nat then ascii_of_nat (n + 32) else c.

Fixpoint lower (s : string) : string :=
  match s with
  | "" => ""
  | String c s' => String (lower_ascii c) (lower s')
  end.

(** [s.rfind(c)], [-1] when [c] does not occur *)
Fixpoint rfind_from (c : ascii) (s : string) (i : Z) (last : Z) : Z :=
  match s with
  | "" => last
  | String a s' =>
      rfind_from c s' (i + 1) (if Ascii.eqb a c then i else last)
  end.

Definition rfind (c : ascii) (s : string) : Z := rfind_from c s 0 (-1).

(** [s[:i]] and [s[i:]] for [0 <= i] *)
Definition take (i : Z) (s : string) : string :=
  String.substring 0 (Z.to_nat i) s.

Definition drop (i : Z) (s : string) : string :=
  String.substring (Z.to_nat i) (String.length s - Z.to_nat i) s.

(** [os.path.basename(p)] *)
Definition basename (p : string) : string := drop (rfind "/" p + 1) p.

(** Is some character of [s] different from [c]? *)
Fixpoint some_other (c : ascii) (s : string) : bool :=
  match s with
  | "" => false
  | String a s' => negb (Ascii.eqb a c) || some_other c s'
  end.

(** [os.path.splitext(p)]: split at the last dot of the last path
    component, unless that component has only dots before it. *)
Definition splitext (p : string) : string * string :=
  let sepIndex := rfind "/" p in
  let dotIndex := rfind "." p in
  if (sepIndex <? dotIndex)
     && some_other "." (take (dotIndex - (sepIndex + 1)) (drop (sepIndex + 1) p))
  then (take dotIndex p, drop dotIndex p)
  else (p, "").

(** [split_filename(fname)] of the workflow library's file utilities:
    base name and extension of the last path component, where
    [.nii.gz], [.tar.gz] and [.niml.dset] count as one extension.  The
    directory part, which no caller below uses, is left out. *)
Definition special_extensions : list string :=
  [".nii.gz"; ".tar.gz"; ".niml.dset"].

Fixpoint split_special (exts : list string) (fname : string)
  : option (string * string) :=
  match exts with
  | [] => None
  | special_ext :: exts' =>
      let ext_len := String.length special_ext in
      let n := String.length fname in
      if (ext_len <? n)%nat
         && String.eqb (lower (String.substring (n - ext_len) ext_len fname))
                       (lower special_ext)
      then Some (String.substring 0 (n - ext_len) fname,
                 String.substring (n - ext_len) ext_len fname)
      else split_special exts' fname
  end.

Definition split_filename (fname : string) : string * string :=
  let fname := basename fname in
  match split_special special_extensions fname with
  | Some r => r
  | None => splitext fname
  end.

End Py.

(** ** The command-line machinery the wrappers subclass

    The wrappers of [preprocess.py] contain no code of their own for
    building a command line: they inherit [cmdline] from the workflow
    library's [CommandLine] class.  This module embeds that inherited code
    path: trait metadata, assignment to an input (with the handler that
    guards [xor] groups), [_check_mandatory_inputs], [_filename_from_source],
    [_format_arg], [_parse_inputs] and [cmdline].

    Values are taken as already validated against their trait type: the
    type check of an assignment and the file-system check of
    [exists=True] are the traits library's and the operating system's. *)

Module Nipype.
Import Py.

Inductive scalar_type : Type :=
| File
| Int
| Bool
| Str
| Enum (values : list string).

Inductive trait_type : Type :=
| Scalar (ty : scalar_type)
| Tuple (elts : list scalar_type)
| ListInt
| InputMultiObject (inner : scalar_type)
| DictStrStr.

Coercion Scalar : scalar_type >-> trait_type.

(** Keyword metadata of a trait declaration ([desc] is documentation and
    is not carried). *)
Inductive meta : Type :=
| exists_
| argstr (s : string)
| position (z : Z)
| mandatory
| xor (fields : list string)
| requires (fields : list string)
| name_source (s : string)
| name_template (s : string)
| keep_extension
| usedefault
| default_value (v : value)
| sep (s : string)
| genfile
| minlen (n : nat)
| maxlen (n : nat)
| nohash.

#[global] Instance meta_eq_dec : EqDecision meta.
Proof. solve_decision. Defined.

Record trait : Type := Trait { ttype : trait_type; metas : list meta }.

(** An input specification: the traits of a class in declaration order,
    inherited ones first. *)
Definition spec : Type := list (string * trait).

Definition t_has (m : meta) (t : trait) : bool := bool_decide (m ∈ metas t).

Definition t_argstr (t : trait) : option string :=
  head (omap (fun m => match m with argstr s => Some s | _ => None end) (metas t)).
Definition t_position (t : trait) : option Z :=
  head (omap (fun m => match m with position z => Some z | _ => None end) (metas t)).
Definition t_xor (t : trait) : option (list string) :=
  head (omap (fun m => match m with xor l => Some l | _ => None end) (metas t)).
Definition t_requires (t : trait) : option (list string) :=
  head (omap (fun m => match m with requires l => Some l | _ => None end) (metas t)).
Definition t_name_source (t : trait) : option string :=
  head (omap (fun m => match m with name_source s => Some s | _ => None end) (metas t)).
Definition t_name_template (t : trait) : option string :=
  head (omap (fun m => match m with name_template s => Some s | _ => None end) (metas t)).
Definition t_sep (t : trait) : option string :=
  head (omap (fun m => match m with sep s => Some s | _ => None end) (metas t)).
Definition t_default (t : trait) : option value :=
  head (omap (fun m => match m with default_value v => Some v | _ => None end) (metas t)).

(** The value a trait type starts from when no default is declared. *)
Definition type_default (ty : trait_type) : value :=
  match ty with
  | Scalar (File | Str) => VStr ""
  | Scalar Int => VInt 0
  | Scalar Bool => VBool false
  | Scalar (Enum (v :: _)) => VStr v
  | Scalar (Enum []) => Undefined
  | Tuple _ => Undefined
  | ListInt | InputMultiObject _ => VList []
  | DictStrStr => Undefined
  end.

(** [trait_spec.is_trait_type(traits.List)] *)
Definition is_list_type (ty : trait_type) : bool :=
  match ty with
  | ListInt | InputMultiObject _ => true
  | _ => false
  end.

Definition is_bool_type (ty : trait_type) : bool :=
  match ty with
  | Scalar Bool => true
  | _ => false
  end.

(** [self.inputs.trait(name)] *)
Fixpoint lookup_trait (sp : spec) (name : string) : option trait :=
  match sp with
  | [] => None
  | (n, t) :: sp' => if String.eqb n name then Some t else lookup_trait sp' name
  end.

(** The state of [self.inputs]: trait name to current value. *)
Abbreviation inputs := (gmap string value).

(** [getattr(self.inputs, name)] *)
Definition getattr (i : inputs) (name : string) : value :=
  default Undefined (i !! name).

(** A fresh [input_spec()]: traits with [usedefault] start at their
    default, all the others are reset to [Undefined]. *)
Definition initial_value (t : trait) : value :=
  if t_has usedefault t
  then default (type_default (ttype t)) (t_default t)
  else Undefined.

Definition new_inputs (sp : spec) : inputs :=
  list_to_map (map (fun nt => (fst nt, initial_value (snd nt))) sp).

(** [_xor_warn], the change handler of every trait that has [xor]
    metadata: a defined new value is refused when another member of the
    group is already defined; the assignment is undone and [IOError]
    raised. *)
Definition xor_clash (i : inputs) (name : string) (fields : list string) : bool :=
  existsb (fun f => negb (String.eqb f name) && isdefined (getattr i f)) fields.

(** [self.inputs.<name> = new]: the state after the assignment and the
    exception it raised, if any.  Handlers only run when the value
    changes. *)
Definition set_input (sp : spec) (name : string) (new : value) (i : inputs)
  : inputs * option exc :=
  match lookup_trait sp name with
  | None => (<[name := new]> i, None)
  | Some t =>
      if bool_decide (getattr i name = new) then (i, None)
      else
        match t_xor t with
        | Some fields =>
            if isdefined new && xor_clash i name fields
            then (<[name := Undefined]> i, Some IOError)
            else (<[name := new]> i, None)
        | None => (<[name := new]> i, None)
        end
  end.

(** A sequence of assignments, stopped by the first exception. *)
Fixpoint set_inputs (sp : spec) (script : list (string * value)) (i : inputs)
  : result inputs :=
  match script with
  | [] => Ok i
  | (name, v) :: script' =>
      match set_input sp name v i with
      | (i', None) => set_inputs sp script' i'
      | (_, Some e) => Raise e
      end
  end.

(** [_check_xor] *)
Definition _check_xor (i : inputs) (t : trait) (v : value) : result unit :=
  match t_xor t with
  | Some fields =>
      if negb (existsb (fun f => isdefined (getattr i f)) fields)
         && negb (isdefined v)
      then Raise ValueError
      else Ok ()
  | None => Ok ()
  end.

(** [_check_requires] *)
Definition _check_requires (i : inputs) (t : trait) (v : value) : result unit :=
  match t_requires t with
  | Some fields =>
      if existsb (fun f => negb (isdefined (getattr i f))) fields
         && isdefined v
      then Raise ValueError
      else Ok ()
  | None => Ok ()
  end.

(** [for ... in ...: body], stopped by the first exception *)
Fixpoint for_each {A} (body : A -> result unit) (l : list A) : result unit :=
  match l with
  | [] => Ok ()
  | x :: l' => _ ← body x; for_each body l'
  end.

(** [self.inputs.traits(mandatory=True)] and
    [self.inputs.traits(mandatory=None, transient=None)]; no trait of
    the wrappers is transient. *)
Definition mandatory_traits (sp : spec) : spec :=
  filter (fun nt => t_has mandatory (snd nt) = true) sp.

Definition optional_traits (sp : spec) : spec :=
  filter (fun nt => t_has mandatory (snd nt) = false) sp.

(** The check of one mandatory input. *)
Definition check_mandatory (i : inputs) (nt : string * trait) : result unit :=
  let v := getattr i (fst nt) in
  _ ← _check_xor i (snd nt) v;
  if negb (isdefined v) && bool_decide (t_xor (snd nt) = None)
  then Raise ValueError
  else if isdefined v then _check_requires i (snd nt) v else Ok ().

(** [_check_mandatory_inputs] *)
Definition _check_mandatory_inputs (sp : spec) (i : inputs) : result unit :=
  _ ← for_each (check_mandatory i) (mandatory_traits sp);
  for_each (fun nt : string * trait =>
              _check_requires i (snd nt) (getattr i (fst nt)))
    (optional_traits sp).

(** [_filename_from_source]: the value of a trait that names its file
    after another input.  A value that is set and holds no [%s] is kept;
    otherwise the name is built from [name_template] and the base name
    of the [name_source] input, and the source's extension is appended
    under [keep_extension].  [chain] is the list of traits being
    resolved; [fuel] bounds the depth of name sources that point to
    name sources. *)
Definition has_template (v : value) : result bool :=
  match v with
  | Undefined => Ok false
  | Atom (AStr s) => Ok (contains "%s" s)
  | Atom _ => Raise TypeError
  | VList l | VTuple l => Ok (bool_decide (AStr "%s" ∈ l))
  end.

(** [while isinstance(source, list): source = source[0]] on a list of
    scalars *)
Definition first_of_list (source : value) : result value :=
  match source with
  | VList (a :: _) => Ok (Atom a)
  | VList [] => Raise IndexError
  | v => Ok v
  end.

Definition nonempty (s : string) : bool := negb (String.eqb s "").

Definition nonempty_opt (s : option string) : bool :=
  match s with
  | Some s => nonempty s
  | None => false
  end.

(** The base class leaves the generated name alone. *)
Definition _overload_extension (v : string) (name : string) : string := v.

Fixpoint _filename_from_source (sp : spec) (i : inputs) (fuel : nat)
    (name : string) (chain : list string) : result value :=
  match fuel with
  | O => Raise RecursionError
  | S fuel' =>
    match lookup_trait sp name with
    | None => Raise AttributeError
    | Some trait_spec =>
      let retval := getattr i name in
      templ ← has_template retval;
      if isdefined retval && negb templ then Ok retval else
      match t_name_source trait_spec with
      | None => Ok retval
      | Some ns =>
        if negb (nonempty ns) then Ok retval else
        if existsb (fun f => isdefined (getattr i f))
             (default [] (t_xor trait_spec)) then Ok retval else
        if negb (forallb (fun f => isdefined (getattr i f))
             (default [] (t_requires trait_spec))) then Ok retval else
        name_template ←
          match retval with
          | Undefined =>
              Ok (if nonempty_opt (t_name_template trait_spec)
                  then default "" (t_name_template trait_spec)
                  else "%s_generated")
          | Atom (AStr s) => Ok s
          | _ => Raise TypeError
          end;
        src ←
          (if isdefined (getattr i ns)
           then source ← first_of_list (getattr i ns);
                match source with
                | Atom (AStr s) =>
                    Ok (Some (VStr (fst (split_filename s)),
                              Some (snd (split_filename s))))
                | v => Ok (Some (v, None))
                end
           else if bool_decide (name ∈ chain) then Raise NipypeInterfaceError
           else base ← _filename_from_source sp i fuel' ns (chain ++ [name])%list;
                match base with
                | Undefined => Ok None
                | Atom (AStr s) => Ok (Some (base, Some (snd (split_filename s))))
                | _ => Raise TypeError
                end);
        match src with
        | None => Ok retval
        | Some (base, source_ext) =>
            retval ← percent name_template base;
            let ext := snd (split_filename retval) in
            Ok (VStr
              (if t_has keep_extension trait_spec
                  && (nonempty ext || nonempty_opt source_ext)
               then if negb (nonempty ext) && nonempty_opt source_ext
                    then retval ++ default "" source_ext
                    else retval
               else _overload_extension retval name))
        end
      end
    end
  end.

(** [CommandLine._format_arg]: the argument a defined value contributes,
    [None] for a flag that is off. *)
Definition CommandLine_format_arg (name : string) (trait_spec : trait)
    (v : value) : result (option string) :=
  match t_argstr trait_spec with
  | None => Raise TypeError
  | Some argstr_ =>
    if is_bool_type (ttype trait_spec) && negb (contains "%" argstr_)
    then Ok (if truthy v then Some argstr_ else None)
    else if is_list_type (ttype trait_spec)
    then
      let sep_ := default " " (t_sep trait_spec) in
      match v with
      | VList l | VTuple l =>
          if endswith argstr_ "..."
          then
            let argstr' := remove_all (String.length argstr_) "..." argstr_ in
            parts ← mapM (fun elt => percent argstr' (Atom elt)) l;
            Ok (Some (join sep_ parts))
          else
            r ← percent argstr_ (VStr (join sep_ (map str l)));
            Ok (Some r)
      | _ => Raise TypeError
      end
    else r ← percent argstr_ v; Ok (Some r)
  end.

(** [initial_args[pos] = arg] on a dictionary kept sorted by key, so
    that reading it off is [sorted(initial_args.items())]. *)
Fixpoint dict_set (pos : Z) (arg : string) (d : list (Z * string))
  : list (Z * string) :=
  match d with
  | [] => [(pos, arg)]
  | (p, a) :: d' =>
      if pos <? p then (pos, arg) :: d
      else if pos =? p then (pos, arg) :: d'
      else (p, a) :: dict_set pos arg d'
  end.

(** [sorted(traits.items())]: by trait name, in code-point order. *)
Fixpoint insert_by_name (nt : string * trait) (l : spec) : spec :=
  match l with
  | [] => [nt]
  | nt' :: l' =>
      if String.leb (fst nt) (fst nt') then nt :: l
      else nt' :: insert_by_name nt l'
  end.

Definition sorted_by_name (sp : spec) : spec := foldr insert_by_name [] sp.

(** [sorted(self.inputs.traits(argstr=...).items())]: the traits that
    have an [argstr], by name. *)
Definition argstr_traits (sp : spec) : spec :=
  sorted_by_name (filter (fun nt => t_argstr (snd nt) ≠ None) sp).

(** A wrapper class: what a subclass of [CommandLine] sets or
    overrides. *)
Record interface : Type := Interface {
  _cmd : string;
  input_spec : spec;
  _format_arg : inputs -> string -> trait -> value -> result (option string);
  _gen_filename : inputs -> string -> result value;
  parse_skip : inputs -> result (list string)
}.

(** The three groups of arguments [_parse_inputs] collects. *)
Record collected : Type := Collected {
  initial_args : list (Z * string);
  all_args : list string;
  final_args : list (Z * string)
}.

(** One iteration of the loop of [CommandLine._parse_inputs]. *)
Definition parse_one (c : interface) (i : inputs) (skip : list string)
    (acc : collected) (nt : string * trait) : result collected :=
  let '(name, trait_spec) := nt in
  if bool_decide (name ∈ skip) then Ok acc else
  v ← (if nonempty_opt (t_name_source trait_spec)
       then _filename_from_source (input_spec c) i
              (S (length (input_spec c))) name []
       else if t_has genfile trait_spec
               && negb (isdefined (getattr i name))
       then _gen_filename c i name
       else Ok (getattr i name));
  if negb (isdefined v) then Ok acc else
  arg ← _format_arg c i name trait_spec v;
  match arg with
  | None => Ok acc
  | Some arg =>
      match t_position trait_spec with
      | Some pos =>
          if 0 <=? pos
          then Ok (Collected (dict_set pos arg (initial_args acc))
                     (all_args acc) (final_args acc))
          else Ok (Collected (initial_args acc) (all_args acc)
                     (dict_set pos arg (final_args acc)))
      | None =>
          Ok (Collected (initial_args acc) (all_args acc ++ [arg])%list
                (final_args acc))
      end
  end.

Fixpoint parse_loop (c : interface) (i : inputs) (skip : list string)
    (acc : collected) (l : spec) : result collected :=
  match l with
  | [] => Ok acc
  | nt :: l' => acc' ← parse_one c i skip acc nt; parse_loop c i skip acc' l'
  end.

(** [CommandLine._parse_inputs(skip)] *)
Definition CommandLine_parse_inputs (c : interface) (i : inputs)
    (skip : list string) : result (list string) :=
  acc ← parse_loop c i skip (Collected [] [] [])
          (argstr_traits (input_spec c));
  Ok (map snd (initial_args acc) ++ all_args acc ++ map snd (final_args acc))%list.

(** [_parse_inputs()] as the class dispatches it: the subclass extends
    the skip list, then the base method runs. *)
Definition _parse_inputs (c : interface) (i : inputs) : result (list string) :=
  skip ← parse_skip c i;
  CommandLine_parse_inputs c i skip.

(** The [cmdline] property. *)
Definition cmdline (c : interface) (i : inputs) : result string :=
  _ ← _check_mandatory_inputs (input_spec c) i;
  args ← _parse_inputs c i;
  Ok (join " " (_cmd c :: args)).

(** A session with a wrapper: a fresh instance, the assignments of
    [script] in order, then [cmdline]. *)
Definition cmdline_after (c : interface) (script : list (string * value))
  : result string :=
  i ← set_inputs (input_spec c) script (new_inputs (input_spec c));
  cmdline c i.

(** [CommandLineInputSpec] *)
Definition CommandLineInputSpec : spec :=
  [ ("args", Trait Str [argstr "%s"]);
    ("environ", Trait DictStrStr [usedefault; nohash]) ].

(** A direct subclass of [CommandLine] with command [cmd] and input
    specification [sp]. *)
Definition CommandLine (cmd : string) (sp : spec) : interface :=
  {| _cmd := cmd;
     input_spec := sp;
     _format_arg := fun _ => CommandLine_format_arg;
     _gen_filename := fun _ _ => Raise NotImplementedError;
     parse_skip := fun _ => Ok [] |}.

End Nipype.

(** ** The base class of the MRtrix3 wrappers *)

Module MRTrix3.
Import Py Nipype.

Section Base.

(** [multiprocessing.cpu_count()] of the machine. *)
Variable cpu_count : Z.

(** Modelled from the spec: [base.py], which [preprocess.py] imports
    [MRTrix3BaseInputSpec] and [MRTrix3Base] from, is not among the
    sources.  The wrappers are declarative "parameter-to-argv"
    mappings, and their docstrings use the inherited [grad_fsl] input,
    rendered as [-fslgrad bvecs bvals].  The base specification is
    taken to be the workflow library's class of the same name, which
    declares the thread count and the gradient-table inputs. *)
Definition MRTrix3BaseInputSpec : spec :=
  (CommandLineInputSpec ++
  [ ("nthreads", Trait Int [argstr "-nthreads %d"; nohash]);
    ("grad_file", Trait File [exists_; argstr "-grad %s"]);
    ("grad_fsl", Trait (Tuple [File; File]) [argstr "-fslgrad %s %s"]);
    ("bval_scale", Trait (Enum ["yes"; "no"]) [argstr "-bvalue_scaling %s"]);
    ("in_bvec", Trait File [exists_; argstr "-fslgrad %s %s"]);
    ("in_bval", Trait File [exists_]) ])%list.

(** Modelled from the spec: [MRTrix3Base._format_arg] of the absent
    [base.py], taken from the library class of the same name: a thread
    count of zero stands for all processors, [in_bvec] is rendered
    together with [in_bval], every other input goes to
    [CommandLine._format_arg]. *)
Definition MRTrix3Base_format_arg (i : inputs) (name : string)
    (trait_spec : trait) (v : value) : result (option string) :=
  if String.eqb name "nthreads" && bool_decide (v = VInt 0)
  then r ← percent (default "" (t_argstr trait_spec)) (VInt cpu_count);
       Ok (Some r)
  else if String.eqb name "in_bvec"
  then
    match v, getattr i "in_bval" with
    | Atom a, Atom b =>
        r ← pyformat (default "" (t_argstr trait_spec)) [a; b]; Ok (Some r)
    | _, _ => Raise TypeError
    end
  else CommandLine_format_arg name trait_spec v.

(** Modelled from the spec: [MRTrix3Base._parse_inputs] of the absent
    [base.py], taken from the library class of the same name: the
    inputs [in_bvec] and [in_bval] are skipped when a gradient table
    is given, and must be given together. *)
Definition MRTrix3Base_parse_skip (i : inputs) : result (list string) :=
  let skip :=
    if isdefined (getattr i "grad_file") || isdefined (getattr i "grad_fsl")
    then ["in_bvec"; "in_bval"] else [] in
  let is_bvec := isdefined (getattr i "in_bvec") in
  let is_bval := isdefined (getattr i "in_bval") in
  if is_bvec || is_bval
  then if negb is_bvec || negb is_bval then Raise RuntimeError
       else Ok (skip ++ ["in_bval"])%list
  else Ok skip.

(** A subclass of [MRTrix3Base] with command [cmd] and input
    specification [sp]. *)
Definition MRTrix3Base (cmd : string) (sp : spec) : interface :=
  {| _cmd := cmd;
     input_spec := sp;
     _format_arg := MRTrix3Base_format_arg;
     _gen_filename := fun _ _ => Raise NotImplementedError;
     parse_skip := MRTrix3Base_parse_skip |}.

End Base.

End MRTrix3.

(** ** [preprocess.py]: the wrappers *)

Module Preprocess.
Import Py Nipype MRTrix3.

Definition DWIDenoiseInputSpec : spec :=
  (MRTrix3BaseInputSpec ++
  [ ("in_file", Trait File [exists_; argstr "%s"; position (-2); mandatory]);
    ("mask", Trait File [exists_; argstr "-mask %s"; position 1]);
    ("extent", Trait (Tuple [Int; Int; Int]) [argstr "-extent %d,%d,%d"]);
    ("noise", Trait File [argstr "-noise %s"; name_template "%s_noise";
                          name_source "in_file"; keep_extension]);
    ("out_file", Trait File [argstr "%s"; position (-1);
                             name_template "%s_denoised";
                             name_source "in_file"; keep_extension]) ])%list.

Definition DWIDenoiseOutputSpec : spec :=
  [ ("noise", Trait File [exists_]);
    ("out_file", Trait File [exists_]) ].

Definition MRDeGibbsInputSpec : spec :=
  (MRTrix3BaseInputSpec ++
  [ ("in_file", Trait File [exists_; argstr "%s"; position (-2); mandatory]);
    ("axes", Trait ListInt [default_value (VList [AInt 0; AInt 1]); usedefault;
                            sep ","; minlen 2; maxlen 2; argstr "-axes %s"]);
    ("nshifts", Trait Int [default_value (VInt 20); usedefault;
                           argstr "-nshifts %d"]);
    ("minW", Trait Int [default_value (VInt 1); usedefault; argstr "-minW %d"]);
    ("maxW", Trait Int [default_value (VInt 3); usedefault; argstr "-maxW %d"]);
    ("out_file", Trait File [name_template "%s_unr"; name_source "in_file";
                             keep_extension; argstr "%s"; position (-1)]) ])%list.

Definition MRDeGibbsOutputSpec : spec :=
  [ ("out_file", Trait File [exists_]) ].

Definition DWIBiasCorrectInputSpec : spec :=
  (MRTrix3BaseInputSpec ++
  [ ("in_file", Trait File [exists_; argstr "%s"; position (-2); mandatory]);
    ("in_mask", Trait File [argstr "-mask %s"]);
    ("use_ants", Trait Bool [argstr "-ants"; mandatory; xor ["use_fsl"]]);
    ("use_fsl", Trait Bool [argstr "-fsl"; mandatory; xor ["use_ants"]]);
    ("bias", Trait File [argstr "-bias %s"]);
    ("out_file", Trait File [name_template "%s_biascorr";
                             name_source "in_file"; keep_extension;
                             argstr "%s"; position (-1); genfile]) ])%list.

Definition DWIBiasCorrectOutputSpec : spec :=
  [ ("bias", Trait File [exists_]);
    ("out_file", Trait File [exists_]) ].

Definition ResponseSDInputSpec : spec :=
  (MRTrix3BaseInputSpec ++
  [ ("algorithm", Trait (Enum ["msmt_5tt"; "dhollander"; "tournier"; "tax"])
                    [argstr "%s"; position 1; mandatory]);
    ("in_file", Trait File [exists_; argstr "%s"; position (-5); mandatory]);
    ("mtt_file", Trait File [argstr "%s"; position (-4)]);
    ("wm_file", Trait File [default_value (VStr "wm.txt"); argstr "%s";
                            position (-3); usedefault]);
    ("gm_file", Trait File [argstr "%s"; position (-2)]);
    ("csf_file", Trait File [argstr "%s"; position (-1)]);
    ("in_mask", Trait File [exists_; argstr "-mask %s"]);
    ("max_sh", Trait (InputMultiObject Int) [argstr "-lmax %s"; sep ","]) ])%list.

Definition ResponseSDOutputSpec : spec :=
  [ ("wm_file", Trait File [argstr "%s"]);
    ("gm_file", Trait File [argstr "%s"]);
    ("csf_file", Trait File [argstr "%s"]) ].

Definition ACTPrepareFSLInputSpec : spec :=
  (CommandLineInputSpec ++
  [ ("in_file", Trait File [exists_; argstr "%s"; mandatory; position (-2)]);
    ("out_file", Trait File [default_value (VStr "act_5tt.mif"); argstr "%s";
                             mandatory; position (-1); usedefault]) ])%list.

Definition ACTPrepareFSLOutputSpec : spec :=
  [ ("out_file", Trait File [exists_]) ].

Definition ReplaceFSwithFIRSTInputSpec : spec :=
  (CommandLineInputSpec ++
  [ ("in_file", Trait File [exists_; argstr "%s"; mandatory; position (-4)]);
    ("in_t1w", Trait File [exists_; argstr "%s"; mandatory; position (-3)]);
    ("in_config", Trait File [exists_; argstr "%s"; position (-2)]);
    ("out_file", Trait File [default_value (VStr "aparc+first.mif");
                             argstr "%s"; mandatory; position (-1);
                             usedefault]) ])%list.

Definition ReplaceFSwithFIRSTOutputSpec : spec :=
  [ ("out_file", Trait File [exists_]) ].

Section Wrappers.

Variable cpu_count : Z.

(** [os.path.abspath] under the working directory of the process. *)
Variable abspath : string -> string.

Definition DWIDenoise : interface :=
  MRTrix3Base cpu_count "dwidenoise" DWIDenoiseInputSpec.

Definition MRDeGibbs : interface :=
  MRTrix3Base cpu_count "mrdegibbs" MRDeGibbsInputSpec.

Definition DWIBiasCorrect : interface :=
  MRTrix3Base cpu_count "dwibiascorrect" DWIBiasCorrectInputSpec.

Definition ResponseSD : interface :=
  MRTrix3Base cpu_count "dwi2response" ResponseSDInputSpec.

Definition ACTPrepareFSL : interface :=
  CommandLine "act_anat_prepare_fsl" ACTPrepareFSLInputSpec.

Definition ReplaceFSwithFIRST : interface :=
  CommandLine "fs_parc_replace_sgm_first" ReplaceFSwithFIRSTInputSpec.

(** The wrapper classes of the file. *)
Definition wrappers : list interface :=
  [DWIDenoise; MRDeGibbs; DWIBiasCorrect; ResponseSD; ACTPrepareFSL;
   ReplaceFSwithFIRST].

(** [op.abspath(v)] on a trait value: only a path has one. *)
Definition op_abspath (v : value) : result value :=
  match v with
  | Atom (AStr s) => Ok (VStr (abspath s))
  | _ => Raise TypeError
  end.

(** [ResponseSD._list_outputs] *)
Definition ResponseSD_list_outputs (i : inputs) : result inputs :=
  let outputs := new_inputs ResponseSDOutputSpec in
  wm ← op_abspath (getattr i "wm_file");
  let outputs := <["wm_file" := wm]> outputs in
  outputs ←
    (if bool_decide (getattr i "gm_file" ≠ Undefined)
     then gm ← op_abspath (getattr i "gm_file");
          Ok (<["gm_file" := gm]> outputs)
     else Ok outputs);
  outputs ←
    (if bool_decide (getattr i "csf_file" ≠ Undefined)
     then csf ← op_abspath (getattr i "csf_file");
          Ok (<["csf_file" := csf]> outputs)
     else Ok outputs);
  Ok outputs.

(** [ACTPrepareFSL._list_outputs] *)
Definition ACTPrepareFSL_list_outputs (i : inputs) : result inputs :=
  let outputs := new_inputs ACTPrepareFSLOutputSpec in
  out ← op_abspath (getattr i "out_file");
  Ok (<["out_file" := out]> outputs).

(** [ReplaceFSwithFIRST._list_outputs] *)
Definition ReplaceFSwithFIRST_list_outputs (i : inputs) : result inputs :=
  let outputs := new_inputs ReplaceFSwithFIRSTOutputSpec in
  out ← op_abspath (getattr i "out_file");
  Ok (<["out_file" := out]> outputs).

End Wrappers.

End Preprocess.

(** ** [cli.py]: the click group and its chained subcommands *)

Module Cli.
Import Py.

(** The interfaces [cli.py] instantiates.  [SamplePipeline] is the
    workflow [create_sample_pipeline] returns; [cli.py] only assigns its
    input fields and connects two of its outputs. *)
Inductive iface : Type :=
| DataSink
| Tractography
| SamplePipeline.

(** A value held in [ctx.obj] or assigned to a node input: [None], a
    string, or a node of the workflow engine with the inputs assigned to
    it so far. *)
Inductive cval : Type :=
| CNone
| CStr (s : string)
| CNode (n : node)
with node : Type :=
| Node (interface : iface) (name : string) (node_inputs : list (string * cval)).

Definition node_inputs (n : node) : list (string * cval) :=
  match n with
  | Node _ _ l => l
  end.

(** [n.inputs.<field>], the last value assigned *)
Fixpoint assoc (field : string) (l : list (string * cval)) : option cval :=
  match l with
  | [] => None
  | (k, v) :: l' =>
      match assoc field l' with
      | Some v' => Some v'
      | None => if String.eqb k field then Some v else None
      end
  end.

Definition node_input (n : node) (field : string) : option cval :=
  assoc field (node_inputs n).

(** [n.inputs.<field> = v] *)
Definition set_node_input (field : string) (v : cval) (n : node) : node :=
  match n with
  | Node i name l => Node i name (l ++ [(field, v)])%list
  end.

(** A value of a click option of type [str]: [None] when not given. *)
Definition of_option (o : option string) : cval :=
  match o with
  | Some s => CStr s
  | None => CNone
  end.

(** One entry of the list given to [wf.connect]. *)
Record connection : Type := Connection {
  conn_src : cval;
  conn_dst : cval;
  conn_fields : list (string * string)
}.

Record workflow : Type := Workflow {
  wf_name : string;
  connections : list connection
}.

(** [ctx.obj], and the workflows handed to the engine so far. *)
Record state : Type := State {
  obj : gmap string cval;
  runs : list workflow
}.

(** The options of the group. *)
Record options : Type := Options {
  in_file : option string;
  bvec : option string;
  bval : option string;
  anat : option string;
  odf : option string;
  seed : option string
}.

(** [ctx.obj[key]] *)
Definition getitem (st : state) (key : string) : result cval :=
  match obj st !! key with
  | Some v => Ok v
  | None => Raise KeyError
  end.

(** [ctx.obj[key] = v] *)
Definition setitem (key : string) (v : cval) (st : state) : state :=
  State (<[key := v]> (obj st)) (runs st).

(** [pe.Node(DataSink(base_directory="/Users/bsms9gep/",
    container="tramp"), name="datasink")] *)
Definition datasink : node :=
  Node DataSink "datasink"
    [("base_directory", CStr "/Users/bsms9gep/"); ("container", CStr "tramp")].

(** [os.path.join(a, b)] *)
Definition path_join (a b : string) : string :=
  if String.prefix "/" b then b
  else if String.eqb a "" || endswith a "/" then a ++ b
  else a ++ "/" ++ b.

(** The directory a data sink writes to: its container under its base
    directory. *)
Definition sink_directory (n : node) : option string :=
  match n with
  | Node DataSink _ _ =>
      match node_input n "base_directory", node_input n "container" with
      | Some (CStr base), Some (CStr container) => Some (path_join base container)
      | _, _ => None
      end
  | _ => None
  end.

(** [cli]: the callback of the group *)
Definition cli (opts : options) (st : state) : state :=
  let st := setitem "in_file" (of_option (in_file opts)) st in
  let st := setitem "bvec" (of_option (bvec opts)) st in
  let st := setitem "bval" (of_option (bval opts)) st in
  let st := setitem "anat" (of_option (anat opts)) st in
  let st := setitem "odf" (of_option (odf opts)) st in
  let st := setitem "seed" (of_option (seed opts)) st in
  setitem "results" (CNode datasink) st.

Section Engine.

(** Whether the workflow engine accepts a workflow and the external
    programs it runs complete: [wf.run()] returns or raises. *)
Variable completes : workflow -> bool.

(** [wf.run()] *)
Definition run (wf : workflow) (st : state) : result state :=
  if completes wf then Ok (State (obj st) (runs st ++ [wf])%list)
  else Raise RuntimeError.

(** [create_sample_pipeline(name)]: a fresh workflow, no input
    assigned yet. *)
Definition create_sample_pipeline (name : string) : node :=
  Node SamplePipeline name [].

(** [dw_recon], the [recon] subcommand *)
Definition dw_recon (st : state) : result state :=
  let wf_sub := create_sample_pipeline "dwi" in
  dwi ← getitem st "in_file";
  let wf_sub := set_node_input "inputnode.dwi" dwi wf_sub in
  bvecs ← getitem st "bvec";
  let wf_sub := set_node_input "inputnode.bvecs" bvecs wf_sub in
  bvals ← getitem st "bval";
  let wf_sub := set_node_input "inputnode.bvals" bvals wf_sub in
  results ← getitem st "results";
  let wf := Workflow "recon"
              [Connection (CNode wf_sub) results
                 [("outputnode.csd", "@odf"); ("dwi_mask.out_file", "@mask")]] in
  st ← run wf st;
  let st := setitem "odf" (CStr "/Users/bsms9gep/tramp/wm.mif") st in
  seed ← getitem st "seed";
  match seed with
  | CNone => Ok (setitem "seed" (CStr "/Users/bsms9gep/tramp/brainmask.mif") st)
  | _ => Ok st
  end.

(** [odf_track], the [track] subcommand *)
Definition odf_track (st : state) : result state :=
  let tck := Node Tractography "track" [] in
  odf ← getitem st "odf";
  let tck := set_node_input "in_file" odf tck in
  seed ← getitem st "seed";
  let tck := set_node_input "seed_image" seed tck in
  results ← getitem st "results";
  let wf := Workflow "track"
              [Connection (CNode tck) results [("out_file", "@tck")]] in
  st ← run wf st;
  Ok (setitem "tck" (CStr "/Users/bsms9gep/tramp/tracking.tck") st).

(** [tck_filter], the [filter] subcommand with its [--tck] option *)
Definition tck_filter (st : state) (tck : option string) : result state :=
  Ok st.

(** The subcommands registered on the group, by name; each takes the
    values of its own options. *)
Definition commands : list (string * (option string -> state -> result state)) :=
  [ ("recon", fun _ => dw_recon);
    ("track", fun _ => odf_track);
    ("filter", fun tck st => tck_filter st tck) ].

(** One subcommand of the command line: its name and the value of
    [--tck], which only [filter] declares. *)
Definition invoke (call : string * option string) (st : state) : result state :=
  match list_find (fun c => fst c = fst call) commands with
  | Some (_, (_, callback)) => callback (snd call) st
  | None => Raise UsageError
  end.

(** [chain=True]: the subcommands run in the order given, on the one
    context. *)
Fixpoint chain (calls : list (string * option string)) (st : state)
  : result state :=
  match calls with
  | [] => Ok st
  | call :: calls' => st' ← invoke call st; chain calls' st'
  end.

(** [cli(obj={})]: the group callback, then the chain *)
Definition main (opts : options) (calls : list (string * option string))
  : result state :=
  chain calls (cli opts (State ∅ [])).

End Engine.

(** The data sink stays in the context, and every connection of every
    workflow that ran ends in it. *)
Definition sunk (st : state) : Prop :=
  obj st !! "results" = Some (CNode datasink)
  /\ Forall (fun wf => Forall (fun c => conn_dst c = CNode datasink)
                         (connections wf)) (runs st).

End Cli.

(** ** Properties of the wrappers *)

Module WrapperProofs.
Import Py Nipype MRTrix3 Preprocess.

#[local] Arguments getattr : simpl never.
#[local] Arguments split_filename : simpl never.
#[local] Arguments parse_one : simpl never.

(** Replace a closed term by its value. *)
Ltac vm_norm t :=
  let v := eval vm_compute in t in
  replace t with v by (vm_compute; reflexivity).

Ltac norm_closed :=
  repeat match goal with
  | |- context [bool_decide (?x ∈ @nil string)] =>
      vm_norm (bool_decide (x ∈ @nil string))
  | |- context [t_has ?m ?t] => vm_norm (t_has m t)
  | |- context [nonempty_opt (t_name_source ?t)] =>
      vm_norm (nonempty_opt (t_name_source t))
  end.

Lemma getattr_insert_eq (i : inputs) name v :
  getattr (<[name := v]> i) name = v.
Proof. unfold getattr. by rewrite lookup_insert_eq. Qed.

Lemma getattr_insert_ne (i : inputs) name name' v :
  name <> name' -> getattr (<[name := v]> i) name' = getattr i name'.
Proof. intros Hne. unfold getattr. by rewrite lookup_insert_ne. Qed.

Lemma append_empty_r (s : string) : s ++ "" = s.
Proof.
  induction s as [|c s IH]; [done|].
  change (String c (s ++ "") = String c s). by f_equal.
Qed.

Lemma pyformat_s (s : string) : pyformat "%s" [AStr s] = Ok s.
Proof. simpl. unfold mbind, result_bind. by rewrite append_empty_r. Qed.

Lemma prefix_append (s t : string) : String.prefix s (s ++ t) = true.
Proof.
  induction s as [|c s IH]; [by destruct t|].
  change (String.prefix (String c s) (String c (s ++ t)) = true).
  cbn. destruct (Ascii.ascii_dec c c); [done | congruence].
Qed.

Lemma prefix_join (sep x : string) (l : list string) :
  String.prefix x (join sep (x :: l)) = true.
Proof.
  destruct l; cbn [join]; [|apply prefix_append].
  rewrite <- (append_empty_r x) at 2. apply prefix_append.
Qed.

(** An input that is unset and has no name source adds no argument. *)
Lemma parse_one_undefined c i skip acc name t :
  nonempty_opt (t_name_source t) = false -> t_has genfile t = false ->
  getattr i name = Undefined -> parse_one c i skip acc (name, t) = Ok acc.
Proof.
  intros Hns Hg Hv. unfold parse_one. destruct (bool_decide _); [done|].
  rewrite Hns, Hg, Hv. done.
Qed.

Section BiasCorrect.

Variable cc : Z.

Lemma biascorr_out_file i f :
  getattr i "in_file" = VStr f -> getattr i "out_file" = Undefined ->
  exists out,
    _filename_from_source DWIBiasCorrectInputSpec i
      (S (length DWIBiasCorrectInputSpec)) "out_file" [] = Ok (VStr out).
Proof.
  intros Hf Ho. eexists.
  cbn [length]. unfold _filename_from_source.
  vm_norm (lookup_trait DWIBiasCorrectInputSpec "out_file").
  rewrite Ho. cbn -[split_filename]. rewrite Hf. cbn -[split_filename].
  reflexivity.
Qed.

Lemma parse_in_file i f acc t :
  lookup_trait DWIBiasCorrectInputSpec "in_file" = Some t ->
  getattr i "in_file" = VStr f ->
  parse_one (DWIBiasCorrect cc) i [] acc ("in_file", t)
  = Ok (Collected (initial_args acc) (all_args acc)
          (dict_set (-2) f (final_args acc))).
Proof.
  intros Ht Hf. vm_compute in Ht. injection Ht as <-.
  unfold parse_one.
  change (_format_arg (DWIBiasCorrect cc)) with (MRTrix3Base_format_arg cc).
  norm_closed. rewrite Hf.
  unfold MRTrix3Base_format_arg, CommandLine_format_arg, percent, VStr.
  cbn -[pyformat]. rewrite pyformat_s. reflexivity.
Qed.

Lemma parse_out_file i out acc t :
  lookup_trait DWIBiasCorrectInputSpec "out_file" = Some t ->
  _filename_from_source DWIBiasCorrectInputSpec i
    (S (length DWIBiasCorrectInputSpec)) "out_file" [] = Ok (VStr out) ->
  parse_one (DWIBiasCorrect cc) i [] acc ("out_file", t)
  = Ok (Collected (initial_args acc) (all_args acc)
          (dict_set (-1) out (final_args acc))).
Proof.
  intros Ht Hout. vm_compute in Ht. injection Ht as <-.
  unfold parse_one.
  change (input_spec (DWIBiasCorrect cc)) with DWIBiasCorrectInputSpec.
  change (_format_arg (DWIBiasCorrect cc)) with (MRTrix3Base_format_arg cc).
  norm_closed. rewrite Hout.
  unfold MRTrix3Base_format_arg, CommandLine_format_arg, percent, VStr.
  cbn -[pyformat]. rewrite pyformat_s. reflexivity.
Qed.

(** A Boolean option that is on contributes its flag. *)
Lemma parse_flag i acc name t flag :
  ttype t = Bool -> t_argstr t = Some flag -> contains "%" flag = false ->
  t_position t = None ->
  nonempty_opt (t_name_source t) = false -> t_has genfile t = false ->
  String.eqb name "nthreads" = false -> String.eqb name "in_bvec" = false ->
  getattr i name = VBool true ->
  parse_one (DWIBiasCorrect cc) i [] acc (name, t)
  = Ok (Collected (initial_args acc) (all_args acc ++ [flag])%list
          (final_args acc)).
Proof.
  intros Hty Harg Hpc Hpos Hns Hg Hn1 Hn2 Hv. unfold parse_one.
  change (_format_arg (DWIBiasCorrect cc)) with (MRTrix3Base_format_arg cc).
  replace (bool_decide (name ∈ @nil string)) with false
    by (symmetry; apply bool_decide_eq_false, not_elem_of_nil).
  rewrite Hns, Hg, Hv. cbn [andb mbind result_bind VBool isdefined negb].
  unfold MRTrix3Base_format_arg, CommandLine_format_arg.
  rewrite Hn1, Hn2, Harg, Hty, Hpc, Hpos. reflexivity.
Qed.

Ltac one_flag name flag :=
  intros Hf Ha Hs Hu;
  repeat (apply Forall_cons_1 in Hu as [? Hu]);
  let out := fresh "out" in
  let Hout := fresh "Hout" in
  match goal with
  | Hf : getattr ?i "in_file" = VStr ?f |- _ =>
      destruct (biascorr_out_file i f) as [out Hout]; [done..|];
      exists out;
      unfold cmdline;
      assert (Hm : _check_mandatory_inputs
                     (input_spec (DWIBiasCorrect cc)) i = Ok ())
        by (unfold _check_mandatory_inputs;
            change (input_spec (DWIBiasCorrect cc))
              with DWIBiasCorrectInputSpec;
            vm_norm (mandatory_traits DWIBiasCorrectInputSpec);
            vm_norm (optional_traits DWIBiasCorrectInputSpec);
            cbn; unfold check_mandatory, _check_xor, _check_requires;
            cbn; rewrite ?Hf, ?Ha, ?Hs; cbn; reflexivity);
      rewrite Hm; cbn [mbind result_bind];
      unfold _parse_inputs;
      change (parse_skip (DWIBiasCorrect cc) i)
        with (MRTrix3Base_parse_skip i);
      unfold MRTrix3Base_parse_skip;
      repeat match goal with H : getattr _ _ = _ |- _ => rewrite H end;
      cbn [isdefined orb mbind result_bind];
      unfold CommandLine_parse_inputs;
      change (input_spec (DWIBiasCorrect cc)) with DWIBiasCorrectInputSpec;
      vm_norm (argstr_traits DWIBiasCorrectInputSpec);
      cbn [parse_loop];
      repeat first
        [ rewrite parse_one_undefined by (reflexivity || assumption)
        | rewrite (parse_in_file i f) by (reflexivity || assumption)
        | rewrite (parse_out_file i out) by (reflexivity || assumption)
        | rewrite (parse_flag i _ name _ flag)
            by (reflexivity || assumption)
        | progress cbn [mbind result_bind] ];
      reflexivity
  end.

(** With a path as [in_file], [use_ants] on and every other input
    unset, the command line is the command, [-ants], the input file and
    a generated output name. *)
Lemma cmdline_use_ants i f :
  getattr i "in_file" = VStr f ->
  getattr i "use_ants" = VBool true ->
  getattr i "use_fsl" = Undefined ->
  Forall (fun n => getattr i n = Undefined)
    ["args"; "nthreads"; "grad_file"; "grad_fsl"; "bval_scale"; "in_bvec";
     "in_bval"; "in_mask"; "bias"; "out_file"] ->
  exists out,
    cmdline (DWIBiasCorrect cc) i
    = Ok ("dwibiascorrect -ants " ++ f ++ " " ++ out).
Proof. one_flag "use_ants" "-ants". Qed.

Lemma cmdline_use_fsl i f :
  getattr i "in_file" = VStr f ->
  getattr i "use_fsl" = VBool true ->
  getattr i "use_ants" = Undefined ->
  Forall (fun n => getattr i n = Undefined)
    ["args"; "nthreads"; "grad_file"; "grad_fsl"; "bval_scale"; "in_bvec";
     "in_bval"; "in_mask"; "bias"; "out_file"] ->
  exists out,
    cmdline (DWIBiasCorrect cc) i
    = Ok ("dwibiascorrect -fsl " ++ f ++ " " ++ out).
Proof. one_flag "use_fsl" "-fsl". Qed.

(** With neither flag defined the mandatory check raises, whatever
    the other inputs are. *)
Lemma cmdline_no_flag i :
  getattr i "use_ants" = Undefined -> getattr i "use_fsl" = Undefined ->
  cmdline (DWIBiasCorrect cc) i = Raise ValueError.
Proof.
  intros Ha Hs. unfold cmdline, _check_mandatory_inputs.
  change (input_spec (DWIBiasCorrect cc)) with DWIBiasCorrectInputSpec.
  vm_norm (mandatory_traits DWIBiasCorrectInputSpec).
  cbn [for_each]. unfold check_mandatory, _check_xor, _check_requires.
  cbn. rewrite Ha, Hs. cbn.
  destruct (getattr i "in_file"); reflexivity.
Qed.

(** Assigning a defined value to one flag while the other is defined
    is refused and leaves the assigned flag undefined. *)
Lemma set_second_flag i name other t (v : atom) :
  lookup_trait DWIBiasCorrectInputSpec name = Some t ->
  t_xor t = Some [other] -> String.eqb other name = false ->
  getattr i name = Undefined -> isdefined (getattr i other) = true ->
  set_input DWIBiasCorrectInputSpec name (Atom v) i
  = (<[name := Undefined]> i, Some IOError).
Proof.
  intros Ht Hx Hne Hn Ho. unfold set_input. rewrite Ht, Hn, Hx.
  rewrite bool_decide_eq_false_2 by discriminate.
  unfold xor_clash. cbn. by rewrite Hne, Ho.
Qed.

End BiasCorrect.

Section Wrappers.

Variable cpu_count : Z.
Variable abspath : string -> string.

(** C1: with [in_file='dwi.mif'], [mask='mask.mif'] and
    [noise='noise.mif'] the DWIDenoise wrapper builds exactly
    ['dwidenoise -mask mask.mif -noise noise.mif dwi.mif dwi_denoised.mif']:
    the two options are rendered as [-mask <path>] and [-noise <path>],
    [in_file] is second to last, and [out_file], which was not
    assigned, is the name of [in_file] with suffix [_denoised] and the
    same extension, placed last. *)
Theorem dwidenoise_cmdline :
  exists i,
    set_inputs DWIDenoiseInputSpec
      [("in_file", VStr "dwi.mif"); ("mask", VStr "mask.mif");
       ("noise", VStr "noise.mif")]
      (new_inputs DWIDenoiseInputSpec) = Ok i
    /\ getattr i "out_file" = Undefined
    /\ _parse_inputs (DWIDenoise cpu_count) i
       = Ok ["-mask mask.mif"; "-noise noise.mif"; "dwi.mif"; "dwi_denoised.mif"]
    /\ cmdline (DWIDenoise cpu_count) i
       = Ok "dwidenoise -mask mask.mif -noise noise.mif dwi.mif dwi_denoised.mif".
Proof.
  eexists. split; [vm_compute; reflexivity|].
  repeat split; vm_compute; reflexivity.
Qed.

(** C3: with only [in_file='dwi.mif'] assigned, the MRDeGibbs wrapper
    starts from the defaults [axes=[0,1]], [nshifts=20], [minW=1] and
    [maxW=3], renders all four, and builds exactly
    ['mrdegibbs -axes 0,1 -maxW 3 -minW 1 -nshifts 20 dwi.mif dwi_unr.mif'];
    the output file is the input name with suffix [_unr]. *)
Theorem mrdegibbs_cmdline :
  getattr (new_inputs MRDeGibbsInputSpec) "axes" = VList [AInt 0; AInt 1]
  /\ getattr (new_inputs MRDeGibbsInputSpec) "nshifts" = VInt 20
  /\ getattr (new_inputs MRDeGibbsInputSpec) "minW" = VInt 1
  /\ getattr (new_inputs MRDeGibbsInputSpec) "maxW" = VInt 3
  /\ getattr (new_inputs MRDeGibbsInputSpec) "out_file" = Undefined
  /\ cmdline_after (MRDeGibbs cpu_count) [("in_file", VStr "dwi.mif")]
     = Ok "mrdegibbs -axes 0,1 -maxW 3 -minW 1 -nshifts 20 dwi.mif dwi_unr.mif".
Proof. repeat split; vm_compute; reflexivity. Qed.

(** C6: a [max_sh] of [[6,8,10]] is rendered by the ResponseSD wrapper
    as the single option [-lmax 6,8,10], placed before the trailing
    positional arguments: with [algorithm='tournier'],
    [grad_fsl=('bvecs','bvals')] and [in_file='dwi.mif'] the command
    line is
    ['dwi2response tournier -fslgrad bvecs bvals -lmax 6,8,10 dwi.mif wm.txt']. *)
Theorem responsesd_max_sh_cmdline :
  (forall i,
     (fun t => _format_arg (ResponseSD cpu_count) i "max_sh" t
                 (VList [AInt 6; AInt 8; AInt 10]))
       <$> lookup_trait ResponseSDInputSpec "max_sh"
     = Some (Ok (Some "-lmax 6,8,10")))
  /\ exists i,
    set_inputs ResponseSDInputSpec
      [("in_file", VStr "dwi.mif"); ("algorithm", VStr "tournier");
       ("grad_fsl", VTuple [AStr "bvecs"; AStr "bvals"]);
       ("max_sh", VList [AInt 6; AInt 8; AInt 10])]
      (new_inputs ResponseSDInputSpec) = Ok i
    /\ _parse_inputs (ResponseSD cpu_count) i
       = Ok ["tournier"; "-fslgrad bvecs bvals"; "-lmax 6,8,10"; "dwi.mif"; "wm.txt"]
    /\ cmdline (ResponseSD cpu_count) i
       = Ok "dwi2response tournier -fslgrad bvecs bvals -lmax 6,8,10 dwi.mif wm.txt".
Proof.
  split.
  - intros i. vm_compute. reflexivity.
  - eexists. split; [vm_compute; reflexivity|].
    split; vm_compute; reflexivity.
Qed.

(** C4: [use_ants] and [use_fsl] of DWIBiasCorrect are mutually
    exclusive mandatory inputs.  With an input file and exactly one of
    them set to [True], the command line is built and carries [-ants]
    (respectively [-fsl]); setting both is refused with [IOError] when
    the second one is assigned, in either order and whatever the two
    values, so no command line is built; with neither defined,
    [cmdline] raises [ValueError] whatever the other inputs are. *)
Theorem dwibiascorrect_exclusive_flags :
  (forall f, exists out,
     cmdline_after (DWIBiasCorrect cpu_count)
       [("in_file", VStr f); ("use_ants", VBool true)]
     = Ok ("dwibiascorrect -ants " ++ f ++ " " ++ out))
  /\ (forall f, exists out,
     cmdline_after (DWIBiasCorrect cpu_count)
       [("in_file", VStr f); ("use_fsl", VBool true)]
     = Ok ("dwibiascorrect -fsl " ++ f ++ " " ++ out))
  /\ (forall f a b,
     cmdline_after (DWIBiasCorrect cpu_count)
       [("in_file", VStr f); ("use_ants", VBool a); ("use_fsl", VBool b)]
     = Raise IOError
     /\ cmdline_after (DWIBiasCorrect cpu_count)
       [("in_file", VStr f); ("use_fsl", VBool b); ("use_ants", VBool a)]
     = Raise IOError)
  /\ (forall (i : inputs) a b,
     set_input DWIBiasCorrectInputSpec "use_fsl" (Atom b)
       (<["use_ants" := Atom a]> (<["use_fsl" := Undefined]> i))
     = (<["use_fsl" := Undefined]>
          (<["use_ants" := Atom a]> (<["use_fsl" := Undefined]> i)),
        Some IOError)
     /\ set_input DWIBiasCorrectInputSpec "use_ants" (Atom a)
       (<["use_fsl" := Atom b]> (<["use_ants" := Undefined]> i))
     = (<["use_ants" := Undefined]>
          (<["use_fsl" := Atom b]> (<["use_ants" := Undefined]> i)),
        Some IOError))
  /\ (forall i : inputs,
     cmdline (DWIBiasCorrect cpu_count)
       (<["use_ants" := Undefined]> (<["use_fsl" := Undefined]> i))
     = Raise ValueError)
  /\ cmdline_after (DWIBiasCorrect cpu_count) [] = Raise ValueError
  /\ (forall f,
     cmdline_after (DWIBiasCorrect cpu_count) [("in_file", VStr f)]
     = Raise ValueError).
Proof.
  repeat apply conj.
  - intros f. unfold cmdline_after.
    replace (set_inputs _ _ _)
      with (Ok (<["use_ants" := VBool true]>
                  (<["in_file" := VStr f]>
                     (new_inputs DWIBiasCorrectInputSpec))))
      by (vm_compute; reflexivity).
    cbn [mbind result_bind].
    apply cmdline_use_ants; [reflexivity..|].
    repeat constructor.
  - intros f. unfold cmdline_after.
    replace (set_inputs _ _ _)
      with (Ok (<["use_fsl" := VBool true]>
                  (<["in_file" := VStr f]>
                     (new_inputs DWIBiasCorrectInputSpec))))
      by (vm_compute; reflexivity).
    cbn [mbind result_bind].
    apply cmdline_use_fsl; [reflexivity..|].
    repeat constructor.
  - intros f a b. split; vm_compute; reflexivity.
  - intros i a b. split.
    + apply (set_second_flag _ "use_fsl" "use_ants") with (v := b)
        (t := Trait Bool [argstr "-fsl"; mandatory; xor ["use_ants"]]);
        try reflexivity.
      * rewrite getattr_insert_ne by discriminate.
        apply getattr_insert_eq.
      * by rewrite getattr_insert_eq.
    + apply (set_second_flag _ "use_ants" "use_fsl") with (v := a)
        (t := Trait Bool [argstr "-ants"; mandatory; xor ["use_fsl"]]);
        try reflexivity.
      * rewrite getattr_insert_ne by discriminate.
        apply getattr_insert_eq.
      * by rewrite getattr_insert_eq.
  - intros i. apply cmdline_no_flag.
    + apply getattr_insert_eq.
    + rewrite getattr_insert_ne by discriminate. apply getattr_insert_eq.
  - vm_compute. reflexivity.
  - intros f. vm_compute. reflexivity.
Qed.

(** C5: the outputs that [ResponseSD._list_outputs] locates.  When
    [wm_file] holds a path [w] (it holds ['wm.txt'] unless assigned),
    and [gm_file] and [csf_file] hold a path or are undefined, the
    outputs are: [wm_file] the absolute path of [w], and [gm_file]
    ([csf_file]) the absolute path of the input when it was given,
    [Undefined] when it was not. *)
Theorem responsesd_list_outputs (i : inputs) (w : string)
    (gm csf : option string) :
  getattr i "wm_file" = VStr w ->
  getattr i "gm_file" = path_value gm ->
  getattr i "csf_file" = path_value csf ->
  getattr (new_inputs ResponseSDInputSpec) "wm_file" = VStr "wm.txt"
  /\ exists outputs,
    ResponseSD_list_outputs abspath i = Ok outputs
    /\ getattr outputs "wm_file" = VStr (abspath w)
    /\ getattr outputs "gm_file" = path_value (abspath <$> gm)
    /\ getattr outputs "csf_file" = path_value (abspath <$> csf).
Proof.
  intros Hw Hg Hc. split; [vm_compute; reflexivity|].
  unfold ResponseSD_list_outputs. rewrite Hw, Hg, Hc.
  vm_norm (new_inputs ResponseSDOutputSpec).
  destruct gm as [g|], csf as [c|]; eexists;
    (split; [reflexivity|]); cbn [fmap option_fmap option_map path_value];
    repeat split;
    repeat first [ rewrite getattr_insert_eq
                 | rewrite getattr_insert_ne by discriminate ];
    reflexivity.
Qed.

(** C7: every wrapper class runs one fixed external program, the one
    its [_cmd] attribute names: whatever the inputs, a command line
    that is built starts with [_cmd].  The commands are [dwidenoise],
    [mrdegibbs], [dwibiascorrect], [dwi2response] and
    [act_anat_prepare_fsl] (and [fs_parc_replace_sgm_first] for the
    sixth wrapper); ACTPrepareFSL writes to ['act_5tt.mif'] unless
    told otherwise.  A wrapper yields nothing but the command line, a
    string, and the paths of its outputs. *)
Theorem wrappers_delegate_to_cmd :
  map _cmd (wrappers cpu_count)
  = ["dwidenoise"; "mrdegibbs"; "dwibiascorrect"; "dwi2response";
     "act_anat_prepare_fsl"; "fs_parc_replace_sgm_first"]
  /\ (forall c i,
        match cmdline c i with
        | Ok s => String.prefix (_cmd c) s = true
        | Raise _ => True
        end)
  /\ getattr (new_inputs ACTPrepareFSLInputSpec) "out_file"
     = VStr "act_5tt.mif"
  /\ cmdline_after ACTPrepareFSL [("in_file", VStr "T1.nii.gz")]
     = Ok "act_anat_prepare_fsl T1.nii.gz act_5tt.mif"
  /\ (forall i,
        getattr i "out_file" = VStr "act_5tt.mif" ->
        exists outputs,
          ACTPrepareFSL_list_outputs abspath i = Ok outputs
          /\ getattr outputs "out_file" = VStr (abspath "act_5tt.mif")).
Proof.
  repeat apply conj; try (vm_compute; reflexivity).
  - intros c i. unfold cmdline.
    destruct (_check_mandatory_inputs _ _); [|done].
    cbn [mbind result_bind].
    destruct (_parse_inputs c i); [|done].
    cbn [mbind result_bind]. apply prefix_join.
  - intros i Hi. unfold ACTPrepareFSL_list_outputs. rewrite Hi.
    eexists. split; [reflexivity|]. apply getattr_insert_eq.
Qed.

End Wrappers.

Lemma responsesd_list_outputs_witness :
  getattr (new_inputs ResponseSDInputSpec) "wm_file" = VStr "wm.txt"
  /\ exists outputs,
    ResponseSD_list_outputs (String.append "/work/")
      (<["gm_file" := VStr "gm.txt"]> (new_inputs ResponseSDInputSpec))
    = Ok outputs
    /\ getattr outputs "wm_file" = VStr "/work/wm.txt"
    /\ getattr outputs "gm_file" = VStr "/work/gm.txt"
    /\ getattr outputs "csf_file" = Undefined.
Proof.
  apply (responsesd_list_outputs (String.append "/work/") _ "wm.txt"
           (Some "gm.txt") None);
    vm_compute; reflexivity.
Defined.

Lemma wrappers_delegate_to_cmd_witness :
  exists outputs,
    ACTPrepareFSL_list_outputs (String.append "/work/")
      (new_inputs ACTPrepareFSLInputSpec) = Ok outputs
    /\ getattr outputs "out_file" = VStr "/work/act_5tt.mif".
Proof.
  apply (wrappers_delegate_to_cmd 4 (String.append "/work/")).
  vm_compute. reflexivity.
Defined.

End WrapperProofs.

(** ** Properties of the command-line interface *)

Module CliProofs.
Import Py Cli.

Local Abbreviation wm_path := "/Users/bsms9gep/tramp/wm.mif".
Local Abbreviation brainmask_path := "/Users/bsms9gep/tramp/brainmask.mif".
Local Abbreviation tracking_path := "/Users/bsms9gep/tramp/tracking.tck".

Section Engine.

Variable completes : workflow -> bool.

(** What a successful [recon] leaves behind. *)
Lemma dw_recon_ok st st' :
  dw_recon completes st = Ok st' ->
  exists dwi bvecs bvals results seed_after,
    obj st !! "in_file" = Some dwi
    /\ obj st !! "bvec" = Some bvecs
    /\ obj st !! "bval" = Some bvals
    /\ obj st !! "results" = Some results
    /\ runs st' =
       (runs st ++
        [Workflow "recon"
           [Connection
              (CNode (Node SamplePipeline "dwi"
                        [("inputnode.dwi", dwi); ("inputnode.bvecs", bvecs);
                         ("inputnode.bvals", bvals)]))
              results
              [("outputnode.csd", "@odf"); ("dwi_mask.out_file", "@mask")]]])%list
    /\ obj st' = <["seed" := seed_after]> (<["odf" := CStr wm_path]> (obj st))
    /\ match obj st !! "seed" with
       | Some CNone => seed_after = CStr brainmask_path
       | Some v => seed_after = v
       | None => False
       end.
Proof.
  unfold dw_recon, getitem, run, setitem. intros H.
  destruct (obj st !! "in_file") as [dwi|] eqn:E1; [|done].
  destruct (obj st !! "bvec") as [bvecs|] eqn:E2; [|done].
  destruct (obj st !! "bval") as [bvals|] eqn:E3; [|done].
  destruct (obj st !! "results") as [results|] eqn:E4; [|done].
  cbn [mbind result_bind set_node_input create_sample_pipeline app] in H.
  destruct (completes _); [|done].
  cbn [mbind result_bind obj runs] in H.
  rewrite lookup_insert_ne in H by done.
  destruct (obj st !! "seed") as [sd|] eqn:E5; [|done].
  cbn [mbind result_bind] in H.
  exists dwi, bvecs, bvals, results.
  destruct sd; injection H as <-; cbn [obj runs].
  - exists (CStr brainmask_path). done.
  - eexists. repeat split; try done.
    by rewrite (insert_id (<["odf":=_]> _) "seed" (CStr s))
      by (by rewrite lookup_insert_ne).
  - eexists. repeat split; try done.
    by rewrite (insert_id (<["odf":=_]> _) "seed" (CNode n))
      by (by rewrite lookup_insert_ne).
Qed.

Lemma recon_odf_seed st st' :
  dw_recon completes st = Ok st' ->
  obj st' !! "odf" = Some (CStr wm_path)
  /\ (obj st !! "seed" = Some CNone ->
      obj st' !! "seed" = Some (CStr brainmask_path)).
Proof.
  intros H.
  apply dw_recon_ok in H
    as (dwi & bvecs & bvals & results & sd & _ & _ & _ & _ & _ & Hobj & Hsd).
  rewrite Hobj. rewrite lookup_insert_ne, !lookup_insert_eq by done.
  split; [done|]. intros Hs. rewrite Hs in Hsd. by subst.
Qed.

(** When [recon] succeeds. *)
Lemma dw_recon_succeeds st :
  is_Some (obj st !! "in_file") -> is_Some (obj st !! "bvec") ->
  is_Some (obj st !! "bval") -> is_Some (obj st !! "results") ->
  is_Some (obj st !! "seed") -> (forall wf, completes wf = true) ->
  exists st', dw_recon completes st = Ok st'.
Proof.
  intros [a Ha] [b Hb] [c Hc] [r Hr] [s Hs] Hrun.
  unfold dw_recon, getitem, run, setitem.
  rewrite Ha, Hb, Hc, Hr. cbn [mbind result_bind]. rewrite Hrun.
  cbn [mbind result_bind obj runs].
  rewrite lookup_insert_ne by done. rewrite Hs. cbn [mbind result_bind].
  destruct s; eauto.
Qed.

(** What a successful [track] leaves behind. *)
Lemma odf_track_ok st st' :
  odf_track completes st = Ok st' ->
  exists odf seed results,
    obj st !! "odf" = Some odf
    /\ obj st !! "seed" = Some seed
    /\ obj st !! "results" = Some results
    /\ runs st' =
       (runs st ++
        [Workflow "track"
           [Connection
              (CNode (Node Tractography "track"
                        [("in_file", odf); ("seed_image", seed)]))
              results [("out_file", "@tck")]]])%list
    /\ obj st' = <["tck" := CStr tracking_path]> (obj st).
Proof.
  unfold odf_track, getitem, run, setitem. intros H.
  destruct (obj st !! "odf") as [o|] eqn:E1; [|done].
  destruct (obj st !! "seed") as [s|] eqn:E2; [|done].
  destruct (obj st !! "results") as [r|] eqn:E3; [|done].
  cbn [mbind result_bind set_node_input app] in H.
  destruct (completes _); [|done].
  cbn [mbind result_bind obj runs] in H. injection H as <-.
  exists o, s, r. done.
Qed.

(** The three subcommands, and nothing else, can be invoked. *)
Lemma invoke_cases name tck st st' :
  invoke completes (name, tck) st = Ok st' ->
  (name = "recon" /\ dw_recon completes st = Ok st')
  \/ (name = "track" /\ odf_track completes st = Ok st')
  \/ (name = "filter" /\ st' = st).
Proof.
  unfold invoke, commands. cbn [list_find fst snd].
  repeat case_decide; cbn [fmap option_fmap option_map prod_map fst snd];
    intros Hinv; subst; try done; auto.
  unfold tck_filter in Hinv. injection Hinv as <-. auto.
Qed.

Lemma invoke_sunk call st st' :
  sunk st -> invoke completes call st = Ok st' -> sunk st'.
Proof.
  intros [Hr Hw] H. destruct call as [name tck].
  apply invoke_cases in H as [[_ H]|[[_ H]|[_ ->]]]; [| |done].
  - apply dw_recon_ok in H
      as (dwi & bvecs & bvals & results & sd & _ & _ & _ & Hres & Hruns & Hobj & _).
    rewrite Hr in Hres. injection Hres as <-. split.
    + rewrite Hobj. by rewrite !lookup_insert_ne by done.
    + rewrite Hruns. apply Forall_app. split; [done|].
      repeat constructor.
  - apply odf_track_ok in H
      as (o & s & results & _ & _ & Hres & Hruns & Hobj).
    rewrite Hr in Hres. injection Hres as <-. split.
    + rewrite Hobj. by rewrite lookup_insert_ne by done.
    + rewrite Hruns. apply Forall_app. split; [done|].
      repeat constructor.
Qed.

Lemma chain_sunk calls st st' :
  sunk st -> chain completes calls st = Ok st' -> sunk st'.
Proof.
  revert st. induction calls as [|call calls IH]; intros st Hs H.
  - cbn in H. by injection H as <-.
  - cbn [chain] in H.
    destruct (invoke completes call st) as [st1|] eqn:E; [|done].
    cbn [mbind result_bind] in H.
    eapply IH; [|exact H]. eapply invoke_sunk; eauto.
Qed.

Lemma cli_sunk opts : sunk (cli opts (State ∅ [])).
Proof. split; [reflexivity | constructor]. Qed.

End Engine.

(** C2: the group has exactly the three chained subcommands [recon],
    [track] and [filter], and paths travel through [ctx.obj]: after the
    group callback and a successful [recon], [ctx.obj['odf']] and
    [ctx.obj['seed']] hold paths, and a following [track] hands exactly
    those two entries to the tractography node as [in_file] and
    [seed_image]. *)
Theorem cli_chains_paths_through_context (completes : workflow -> bool)
    (opts : options) (st1 st2 : state) :
  dw_recon completes (cli opts (State ∅ [])) = Ok st1 ->
  odf_track completes st1 = Ok st2 ->
  map fst (commands completes) = ["recon"; "track"; "filter"]
  /\ exists odf_path seed_path tck,
      obj st1 !! "odf" = Some (CStr odf_path)
      /\ obj st1 !! "seed" = Some (CStr seed_path)
      /\ last (runs st2)
         = Some (Workflow "track"
                   [Connection (CNode tck) (CNode datasink)
                      [("out_file", "@tck")]])
      /\ node_input tck "in_file" = Some (CStr odf_path)
      /\ node_input tck "seed_image" = Some (CStr seed_path).
Proof.
  intros H1 H2. split; [reflexivity|].
  apply dw_recon_ok in H1
    as (dwi & bvecs & bvals & results & sd & _ & _ & _ & _ & _ & Hobj & Hsd).
  apply odf_track_ok in H2
    as (o & s & r & Ho & Hs & Hr & Hruns & _).
  rewrite Hobj in Ho, Hs, Hr.
  rewrite lookup_insert_ne, lookup_insert_eq in Ho by done.
  rewrite lookup_insert_eq in Hs.
  rewrite !lookup_insert_ne in Hr by done.
  injection Ho as <-. injection Hs as <-.
  change (obj (cli opts (State ∅ [])) !! "results")
    with (Some (CNode datasink)) in Hr.
  injection Hr as <-.
  change (obj (cli opts (State ∅ [])) !! "seed")
    with (Some (of_option (seed opts))) in Hsd.
  assert (exists seed_path, sd = CStr seed_path) as [seed_path ->].
  { destruct (seed opts); cbn in Hsd; subst sd; eauto. }
  exists wm_path, seed_path.
  eexists. rewrite Hobj, Hruns, last_snoc.
  rewrite lookup_insert_ne, !lookup_insert_eq by done.
  repeat split; reflexivity.
Qed.

Lemma cli_chains_paths_through_context_witness :
  exists st1 st2,
    dw_recon (fun _ => true)
      (cli (Options (Some "dwi.nii.gz") (Some "bvecs") (Some "bvals")
              None None None) (State ∅ [])) = Ok st1
    /\ odf_track (fun _ => true) st1 = Ok st2
    /\ obj st1 !! "odf" = Some (CStr wm_path)
    /\ obj st1 !! "seed" = Some (CStr brainmask_path)
    /\ exists tck,
        last (runs st2)
        = Some (Workflow "track"
                  [Connection (CNode tck) (CNode datasink)
                     [("out_file", "@tck")]])
        /\ node_input tck "in_file" = Some (CStr wm_path)
        /\ node_input tck "seed_image" = Some (CStr brainmask_path).
Proof.
  set (completes := fun _ : workflow => true).
  set (opts := Options _ _ _ _ _ _).
  destruct (dw_recon completes (cli opts (State ∅ []))) as [st1|] eqn:E1;
    [|vm_compute in E1; discriminate].
  destruct (odf_track completes st1) as [st2|] eqn:E2.
  2:{ vm_compute in E1. injection E1 as <-. vm_compute in E2. discriminate. }
  exists st1, st2.
  destruct (cli_chains_paths_through_context completes opts st1 st2 E1 E2)
    as (_ & o & s & tck & Ho & Hs & Hl & Hi & Hsi).
  assert (o = wm_path /\ s = brainmask_path) as [-> ->].
  { vm_compute in E1. injection E1 as <-.
    vm_compute in Ho, Hs. by simplify_eq. }
  repeat split; try done. exists tck. done.
Defined.

(** C8: after [recon], [ctx.obj['odf']] is the fixed path
    ['/Users/bsms9gep/tramp/wm.mif'] whatever it held before, so a value
    given with [--odf] is lost; [ctx.obj['seed']] becomes
    ['/Users/bsms9gep/tramp/brainmask.mif'] only when it was [None], and
    any other value, such as one given with [--seed], is kept. *)
Theorem recon_overwrites_odf_keeps_seed (completes : workflow -> bool)
    (st st' : state) :
  dw_recon completes st = Ok st' ->
  obj st' !! "odf" = Some (CStr "/Users/bsms9gep/tramp/wm.mif")
  /\ (obj st !! "seed" = Some CNone ->
      obj st' !! "seed" = Some (CStr "/Users/bsms9gep/tramp/brainmask.mif"))
  /\ (forall v, obj st !! "seed" = Some v -> v <> CNone ->
      obj st' !! "seed" = Some v)
  /\ (forall opts, st = cli opts (State ∅ []) ->
      obj st' !! "seed"
      = Some (CStr (default "/Users/bsms9gep/tramp/brainmask.mif" (seed opts)))).
Proof.
  intros H.
  apply dw_recon_ok in H
    as (dwi & bvecs & bvals & results & sd & _ & _ & _ & _ & _ & Hobj & Hsd).
  rewrite Hobj. rewrite lookup_insert_ne, !lookup_insert_eq by done.
  repeat split.
  - intros Hs. rewrite Hs in Hsd. by subst.
  - intros v Hs Hv. rewrite Hs in Hsd. destruct v; by subst.
  - intros opts ->.
    change (obj (cli opts (State ∅ [])) !! "seed")
      with (Some (of_option (seed opts))) in Hsd.
    destruct (seed opts); cbn in Hsd; by subst.
Qed.

Lemma recon_overwrites_odf_keeps_seed_witness :
  exists st',
    dw_recon (fun _ => true)
      (cli (Options (Some "dwi.nii.gz") (Some "bvecs") (Some "bvals") None
              (Some "user_odf.mif") (Some "user_seed.mif"))
         (State ∅ [])) = Ok st'
    /\ obj st' !! "odf" = Some (CStr "/Users/bsms9gep/tramp/wm.mif")
    /\ obj st' !! "seed" = Some (CStr "user_seed.mif").
Proof.
  set (opts := Options _ _ _ _ _ _).
  destruct (dw_recon (fun _ => true) (cli opts (State ∅ []))) as [st'|] eqn:E;
    [|vm_compute in E; discriminate].
  exists st'.
  destruct (recon_overwrites_odf_keeps_seed _ _ _ E) as (Ho & _ & _ & Hs).
  split; [reflexivity|]. split; [exact Ho|].
  exact (Hs opts eq_refl).
Defined.

(** C9: whatever the options and the chain of subcommands, the outputs
    are sunk under the one fixed directory, the container [tramp] of the
    base directory ['/Users/bsms9gep/']: the [results] entry of the
    context is the data sink the group callback creates with these two
    constants, every connection of every workflow that ran ends in it,
    and the paths [recon] and [track] record lie in that directory. *)
Theorem outputs_sunk_under_fixed_directory (completes : workflow -> bool)
    (opts : options) (calls : list (string * option string)) (st : state) :
  main completes opts calls = Ok st ->
  sink_directory datasink = Some "/Users/bsms9gep/tramp"
  /\ obj (cli opts (State ∅ [])) !! "results" = Some (CNode datasink)
  /\ obj st !! "results" = Some (CNode datasink)
  /\ Forall (fun wf => Forall (fun c => conn_dst c = CNode datasink)
                         (connections wf)) (runs st)
  /\ (forall st1 st2, dw_recon completes st1 = Ok st2 ->
      obj st2 !! "odf"
      = Some (CStr (path_join "/Users/bsms9gep/tramp" "wm.mif"))
      /\ (obj st1 !! "seed" = Some CNone ->
          obj st2 !! "seed"
          = Some (CStr (path_join "/Users/bsms9gep/tramp" "brainmask.mif"))))
  /\ (forall st1 st2, odf_track completes st1 = Ok st2 ->
      obj st2 !! "tck"
      = Some (CStr (path_join "/Users/bsms9gep/tramp" "tracking.tck"))).
Proof.
  intros H. unfold main in H.
  pose proof (chain_sunk completes calls _ _ (cli_sunk opts) H) as [Hr Hw].
  split; [reflexivity|]. split; [reflexivity|].
  split; [exact Hr|]. split; [exact Hw|]. split.
  - intros st1 st2 H12. exact (recon_odf_seed completes st1 st2 H12).
  - intros st1 st2 H12.
    apply odf_track_ok in H12 as (o & s & r & _ & _ & _ & _ & Hobj).
    rewrite Hobj. apply lookup_insert_eq.
Qed.

Lemma outputs_sunk_under_fixed_directory_witness :
  exists st,
    main (fun _ => true)
      (Options (Some "dwi.nii.gz") (Some "bvecs") (Some "bvals") None None
         None)
      [("recon", None); ("track", None); ("filter", Some "tracking.tck")]
    = Ok st
    /\ obj st !! "results" = Some (CNode datasink)
    /\ length (runs st) = 2%nat
    /\ Forall (fun wf => Forall (fun c => conn_dst c = CNode datasink)
                           (connections wf)) (runs st).
Proof.
  set (opts := Options _ _ _ _ _ _). set (calls := [_; _; _]).
  destruct (main (fun _ => true) opts calls) as [st|] eqn:E;
    [|vm_compute in E; discriminate].
  exists st.
  destruct (outputs_sunk_under_fixed_directory _ _ _ _ E)
    as (_ & _ & Hr & Hw & _).
  split; [reflexivity|]. split; [exact Hr|]. split; [|exact Hw].
  vm_compute in E. injection E as <-. reflexivity.
Defined.

(** C10: [filter] does nothing: for every context and every value of
    [--tck] it returns with the context, and the list of workflows handed
    to the engine, unchanged. *)
Theorem filter_is_noop (completes : workflow -> bool) (st : state)
    (tck : option string) :
  tck_filter st tck = Ok st
  /\ invoke completes ("filter", tck) st = Ok st
  /\ exists st', invoke completes ("filter", tck) st = Ok st'
                 /\ obj st' = obj st /\ runs st' = runs st.
Proof.
  assert (invoke completes ("filter", tck) st = Ok st) by reflexivity.
  repeat split; eauto.
Qed.

End CliProofs.
